(** * x-mcp: the tool layer of [server.py], embedded and verified

    The server exposes five tools ([x_get_me], [x_post_tweet],
    [x_post_thread], [x_get_tweet], [x_delete_tweet]) that each build
    HTTP requests, read the response and format a string.  The embedding
    follows the Python text function by function:

    - a Python [str] is a list of code points, so that [len] counts
      characters the way Python does;
    - the values produced by [resp.json()] are the type [pyobj];
    - the tools run in a small monad that threads the process state (the
      module globals and the log of requests sent) and may raise a Python
      exception instead of returning. *)

From Stdlib Require Import ZArith NArith String Ascii DecimalString.
From stdpp Require Import base option list gmap.

Local Open Scope Z_scope.
Local Open Scope list_scope.

(** ** Python strings *)

Definition pystr := list N.

(** A literal of the source text, as code points. *)
Definition lit (s : string) : pystr :=
  (λ a, N_of_ascii a) <$> list_ascii_of_string s.

Definition NL : pystr := [10%N].

(** [str(n)] for an integer, as the f-strings print [len(...)] and [i+1]. *)
Definition int_str (z : Z) : pystr :=
  lit (NilZero.string_of_int (Z.to_int z)).

(** [len(s)]: the number of code points. *)
Definition len (s : pystr) : Z := Z.of_nat (length s).

Arguments lit : simpl never.
Arguments int_str : simpl never.
Arguments len : simpl never.

(** [sep.join(parts)]. *)
Fixpoint join (sep : pystr) (parts : list pystr) : pystr :=
  match parts with
  | [] => []
  | [p] => p
  | p :: rest => p ++ sep ++ join sep rest
  end.

(** [s.startswith(pre)]. *)
Fixpoint startswith (pre s : pystr) : bool :=
  match pre, s with
  | [], _ => true
  | _ :: _, [] => false
  | a :: pre', b :: s' => if decide (a = b) then startswith pre' s' else false
  end.

(** [text.split(sep)] for a non-empty [sep]: the pieces between the
    leftmost non-overlapping occurrences of [sep].  [skip] counts the
    characters of a separator still to be stepped over and [cur] holds
    the piece being read, last character first. *)
Fixpoint split_go (sep : pystr) (skip : nat) (cur s : pystr) : list pystr :=
  match s with
  | [] => [reverse cur]
  | c :: s' =>
      match skip with
      | S k => split_go sep k cur s'
      | O =>
          if startswith sep s
          then reverse cur :: split_go sep (length sep - 1) [] s'
          else split_go sep 0 (c :: cur) s'
      end
  end.

Definition split (sep text : pystr) : list pystr := split_go sep 0 [] text.

(** [ch.isspace()]: the code points CPython lists as whitespace. *)
Definition isspace (c : N) : bool :=
  ((9 <=? c) && (c <=? 13) || (28 <=? c) && (c <=? 32)
   || (c =? 133) || (c =? 160) || (c =? 5760)
   || (8192 <=? c) && (c <=? 8202)
   || (c =? 8232) || (c =? 8233) || (c =? 8239) || (c =? 8287)
   || (c =? 12288))%N.

Fixpoint lstrip (s : pystr) : pystr :=
  match s with
  | [] => []
  | c :: s' => if isspace c then lstrip s' else s
  end.

Definition rstrip (s : pystr) : pystr := reverse (lstrip (reverse s)).

(** [s.strip()]. *)
Definition strip (s : pystr) : pystr := rstrip (lstrip s).

(** Truth value of a string: [if t.strip()]. *)
Definition nonempty (s : pystr) : bool :=
  match s with [] => false | _ :: _ => true end.


(** ** Values decoded from JSON *)

Set Warnings "-register-all".

(** What [resp.json()] can produce.  A float is carried as the text
    [repr] prints for it: the server only ever prints these values. *)
Inductive pyobj :=
| PyNone
| PyBool (b : bool)
| PyInt (z : Z)
| PyFloat (shown : pystr)
| PyStr (s : pystr)
| PyList (items : list pyobj)
| PyDict (items : list (pystr * pyobj)).

(** [bool(v)], as [if reply_to_id:] evaluates it. *)
Definition truthy (v : pyobj) : bool :=
  match v with
  | PyNone => false
  | PyBool b => b
  | PyInt z => negb (z =? 0)
  | PyFloat shown =>
      negb (bool_decide (shown = lit "0.0") || bool_decide (shown = lit "-0.0"))
  | PyStr s => nonempty s
  | PyList items => match items with [] => false | _ => true end
  | PyDict items => match items with [] => false | _ => true end
  end.

(** Lookup of a key in a dict; decoded dicts have distinct keys. *)
Fixpoint assoc (key : pystr) (items : list (pystr * pyobj)) : option pyobj :=
  match items with
  | [] => None
  | (k, v) :: rest => if decide (k = key) then Some v else assoc key rest
  end.

Definition hexdigit (d : N) : N :=
  (if d <? 10 then 48 + d else 87 + d)%N.

(** [n] in lower-case hexadecimal, [width] digits. *)
Fixpoint hex (width : nat) (n : N) : pystr :=
  match width with
  | O => []
  | S w => hex w (n / 16)%N ++ [hexdigit (n mod 16)%N]
  end.

(** ** Exceptions, HTTP and the process state *)

Inductive exn :=
| KeyError (key : pystr)
| TypeError
| AttributeError
| IndexError
| JSONDecodeError.

Inductive result (A : Type) :=
| Returned (a : A)
| Raised (e : exn).
Arguments Returned {A} a.
Arguments Raised {A} e.

(** [v[key]] for a string key: only a dict can be subscripted by one. *)
Definition getitem (v : pyobj) (key : pystr) : result pyobj :=
  match v with
  | PyDict items =>
      match assoc key items with
      | Some x => Returned x
      | None => Raised (KeyError key)
      end
  | _ => Raised TypeError
  end.

(** [v.get(key, dflt)]: a method of dicts only. *)
Definition get (v : pyobj) (key : pystr) (dflt : pyobj) : result pyobj :=
  match v with
  | PyDict items => Returned (default dflt (assoc key items))
  | _ => Raised AttributeError
  end.

(** [OAuth1(client_key, client_secret, resource_owner_key,
    resource_owner_secret)]. *)
Record OAuth1 := {
  client_key : pystr;
  client_secret : pystr;
  resource_owner_key : pystr;
  resource_owner_secret : pystr
}.

Inductive http_method := POST | GET | DELETE.

(** A call of [requests.post], [requests.get] or [requests.delete]. *)
Record request := {
  req_method : http_method;
  req_url : pystr;
  req_auth : OAuth1;
  req_json : option pyobj;
  req_params : list (pystr * pyobj)
}.

(** The response object: [resp.status_code], [resp.text], and what
    [resp.json()] makes of the body ([None] when it is not JSON and the
    call raises). *)
Record response := {
  status_code : Z;
  text : pystr;
  decoded : option pyobj
}.

(** The module globals and the requests sent so far. *)
Record process := {
  TWITTER_API_KEY : pystr;
  TWITTER_API_KEY_SECRET : pystr;
  TWITTER_ACCESS_TOKEN : pystr;
  TWITTER_ACCESS_TOKEN_SECRET : pystr;
  twitter_auth : OAuth1;
  sent : list request
}.

(** The process after the requests [reqs] went out: only the log grows. *)
Definition logging (reqs : list request) (p : process) : process :=
  {| TWITTER_API_KEY := TWITTER_API_KEY p;
     TWITTER_API_KEY_SECRET := TWITTER_API_KEY_SECRET p;
     TWITTER_ACCESS_TOKEN := TWITTER_ACCESS_TOKEN p;
     TWITTER_ACCESS_TOKEN_SECRET := TWITTER_ACCESS_TOKEN_SECRET p;
     twitter_auth := twitter_auth p;
     sent := sent p ++ reqs |}.

Definition sending (req : request) (p : process) : process := logging [req] p.

(** A computation of the server: it may send requests and either
    returns or raises. *)
Definition M (A : Type) : Type := process → result A * process.

#[global] Instance M_ret : MRet M := λ A a p, (Returned a, p).

#[global] Instance M_bind : MBind M := λ A B f m p,
  match m p with
  | (Returned a, p') => f a p'
  | (Raised e, p') => (Raised e, p')
  end.

Definition lift {A} (r : result A) : M A := λ p, (r, p).

Definition THREAD_SEPARATOR : pystr := NL ++ NL ++ lit "---" ++ NL ++ NL.

(** The dict [{"status": ..., "data": ...}] the internal functions return. *)
Record reply := { status : Z; data : pyobj }.

Definition tweets_url : pystr := lit "https://api.twitter.com/2/tweets".

(** Lines 44-46: the JSON payload of a post. *)
Definition payload (text : pystr) (reply_to_id : pyobj) : pyobj :=
  if truthy reply_to_id
  then PyDict [(lit "text", PyStr text);
               (lit "reply",
                PyDict [(lit "in_reply_to_tweet_id", reply_to_id)])]
  else PyDict [(lit "text", PyStr text)].

(** Line 48: the request [requests.post(url, auth=..., json=payload)]. *)
Definition post_request (auth : OAuth1) (text : pystr) (reply_to_id : pyobj)
    : request :=
  {| req_method := POST; req_url := tweets_url; req_auth := auth;
     req_json := Some (payload text reply_to_id); req_params := [] |}.

(** ** Reading requests and responses *)

Definition ok {A} (r : result A) : option A :=
  match r with Returned a => Some a | Raised _ => None end.

(** [payload["text"]] of a request. *)
Definition request_text (req : request) : option pyobj :=
  body ← req_json req; ok (getitem body (lit "text")).

(** [payload["reply"]["in_reply_to_tweet_id"]] of a request, if any. *)
Definition reply_target (req : request) : option pyobj :=
  body ← req_json req;
  reply ← ok (getitem body (lit "reply"));
  ok (getitem reply (lit "in_reply_to_tweet_id")).

(** [resp.json()["data"]["id"]] of a response, if it has one. *)
Definition returned_id (resp : response) : option pyobj :=
  body ← decoded resp;
  data ← ok (getitem body (lit "data"));
  ok (getitem data (lit "id")).


(** A response that reports a posted tweet and its identifier. *)
Definition posted (resp : response) (tweet_id : pyobj) : Prop :=
  status_code resp = 201 ∧ returned_id resp = Some tweet_id.

(** Lines 54-58: [requests.get(url, auth=..., params=params)]. *)
Definition get_tweet_request (auth : OAuth1) (tweet_id : pystr) : request :=
  {| req_method := GET; req_url := tweets_url ++ lit "/" ++ tweet_id;
     req_auth := auth; req_json := None;
     req_params :=
       [(lit "tweet.fields",
         PyStr (lit "public_metrics,created_at,author_id"))] |}.

(** Lines 64-65: [requests.delete(url, auth=...)]. *)
Definition delete_tweet_request (auth : OAuth1) (tweet_id : pystr) : request :=
  {| req_method := DELETE; req_url := tweets_url ++ lit "/" ++ tweet_id;
     req_auth := auth; req_json := None; req_params := [] |}.

(** Lines 71-75: [requests.get(url, auth=..., params=params)]. *)
Definition get_me_request (auth : OAuth1) : request :=
  {| req_method := GET; req_url := lit "https://api.twitter.com/2/users/me";
     req_auth := auth; req_json := None;
     req_params :=
       [(lit "user.fields", PyStr (lit "id,name,username,public_metrics"))] |}.

(** ** Start-up: the module-level code *)

(** [os.getenv(name, dflt)] on the environment [load_dotenv()] leaves,
    recording the name read. *)
Definition getenv (environ : gmap pystr pystr) (name dflt : pystr)
    (reads : list pystr) : pystr * list pystr :=
  (default dflt (environ !! name), reads ++ [name]).

(** Lines 22-33: the four credentials and the signer built from them.
    Returns the initial process and the variables read, in order. *)
Definition module_init (environ : gmap pystr pystr) : process * list pystr :=
  let '(k, reads) := getenv environ (lit "TWITTER_API_KEY") [] [] in
  let '(ks, reads) := getenv environ (lit "TWITTER_API_KEY_SECRET") [] reads in
  let '(t, reads) := getenv environ (lit "TWITTER_ACCESS_TOKEN") [] reads in
  let '(ts, reads) :=
    getenv environ (lit "TWITTER_ACCESS_TOKEN_SECRET") [] reads in
  ({| TWITTER_API_KEY := k;
      TWITTER_API_KEY_SECRET := ks;
      TWITTER_ACCESS_TOKEN := t;
      TWITTER_ACCESS_TOKEN_SECRET := ts;
      twitter_auth := {| client_key := k; client_secret := ks;
                         resource_owner_key := t;
                         resource_owner_secret := ts |};
      sent := [] |}, reads).

(** ** Sample data *)

(** The printable table restricted to Latin-1, enough for ASCII data. *)
Definition isprintable_latin1 (c : N) : bool :=
  ((161 <=? c) && (c <=? 255) && negb (c =? 173))%N.

(** A double quote, which a literal cannot hold. *)
Definition dq : pystr := [34%N].

(** A freshly started process with no credential in the environment. *)
Definition fresh : process := (module_init ∅).1.

(** The response to a successful post: [{"data":{"id":"<id>"}}]. *)
Definition created (id : pystr) : response :=
  {| status_code := 201;
     text := lit "{" ++ dq ++ lit "data" ++ dq ++ lit ":{" ++ dq ++ lit "id"
             ++ dq ++ lit ":" ++ dq ++ id ++ dq ++ lit "}}";
     decoded := Some (PyDict [(lit "data", PyDict [(lit "id", PyStr id)])]) |}.

(** A 201 whose body is the empty object [{}]. *)
Definition created_bare : response :=
  {| status_code := 201; text := lit "{}"; decoded := Some (PyDict []) |}.

(** A 403 with the JSON body [{"detail":"Forbidden"}]. *)
Definition forbidden : response :=
  {| status_code := 403;
     text := lit "{" ++ dq ++ lit "detail" ++ dq ++ lit ":" ++ dq
             ++ lit "Forbidden" ++ dq ++ lit "}";
     decoded := Some (PyDict [(lit "detail", PyStr (lit "Forbidden"))]) |}.

(** A 503 from a gateway, with a body that is not JSON. *)
Definition unavailable : response :=
  {| status_code := 503; text := lit "Service Unavailable"; decoded := None |}.

(** A 200 with an empty body. *)
Definition empty_ok : response :=
  {| status_code := 200; text := []; decoded := None |}.

(** A 200 whose [data] holds nothing: [{"data":{}}]. *)
Definition found_bare : response :=
  {| status_code := 200;
     text := lit "{" ++ dq ++ lit "data" ++ dq ++ lit ":{}}";
     decoded := Some (PyDict [(lit "data", PyDict [])]) |}.

(** A 200 whose [data] holds the three keys of a user and no metrics:
    [{"data":{"id":"7","name":"Ann","username":"ann"}}]. *)
Definition found_user : response :=
  {| status_code := 200;
     text := lit "{" ++ dq ++ lit "data" ++ dq ++ lit ":{" ++ dq ++ lit "id"
             ++ dq ++ lit ":" ++ dq ++ lit "7" ++ dq ++ lit "," ++ dq
             ++ lit "name" ++ dq ++ lit ":" ++ dq ++ lit "Ann" ++ dq
             ++ lit "," ++ dq ++ lit "username" ++ dq ++ lit ":" ++ dq
             ++ lit "ann" ++ dq ++ lit "}}";
     decoded :=
       Some (PyDict [(lit "data",
                      PyDict [(lit "id", PyStr (lit "7"));
                              (lit "name", PyStr (lit "Ann"));
                              (lit "username", PyStr (lit "ann"))])]) |}.

(** A 200 that reports errors and has no [data]:
    [{"errors":[{"detail":"Not Found"}]}]. *)
Definition not_found : response :=
  {| status_code := 200;
     text := lit "{" ++ dq ++ lit "errors" ++ dq ++ lit ":[{" ++ dq
             ++ lit "detail" ++ dq ++ lit ":" ++ dq ++ lit "Not Found" ++ dq
             ++ lit "}]}";
     decoded :=
       Some (PyDict [(lit "errors",
                      PyList [PyDict [(lit "detail",
                                       PyStr (lit "Not Found"))]])]) |}.

(** A 200 whose user has null metrics:
    [{"data":{"id":"7","name":"Ann","username":"ann","public_metrics":null}}]. *)
Definition null_metrics : response :=
  {| status_code := 200;
     text := lit "{" ++ dq ++ lit "data" ++ dq ++ lit ":{" ++ dq ++ lit "id"
             ++ dq ++ lit ":" ++ dq ++ lit "7" ++ dq ++ lit "," ++ dq
             ++ lit "name" ++ dq ++ lit ":" ++ dq ++ lit "Ann" ++ dq
             ++ lit "," ++ dq ++ lit "username" ++ dq ++ lit ":" ++ dq
             ++ lit "ann" ++ dq ++ lit "," ++ dq ++ lit "public_metrics" ++ dq
             ++ lit ":null}}";
     decoded :=
       Some (PyDict [(lit "data",
                      PyDict [(lit "id", PyStr (lit "7"));
                              (lit "name", PyStr (lit "Ann"));
                              (lit "username", PyStr (lit "ann"));
                              (lit "public_metrics", PyNone)])]) |}.

(** A 200 with the plain-text body [OK]. *)
Definition plain_ok : response :=
  {| status_code := 200; text := lit "OK"; decoded := None |}.

(** The remote API answering every request with [resp]. *)
Definition always (resp : response) (n : nat) : response := resp.

(** The remote API answering with [first], then with [others]. *)
Definition answers (first others : response) (n : nat) : response :=
  match n with O => first | S _ => others end.

(** A thread of two short segments. *)
Definition two_tweets : pystr := lit "one" ++ THREAD_SEPARATOR ++ lit "two".

(** [n] times the letter x. *)
Definition xs (n : nat) : pystr := replicate n 120%N.

(** ** The server *)

Section Server.

(** The interpreter's table of printable code points above ASCII
    ([str.isprintable]); it is part of CPython's Unicode database. *)
Variable isprintable : N → bool.

(** The remote API: the response to the [n]-th request of the process.
    Every request is answered; a transport failure of the HTTP client,
    where no response exists, is outside the model. *)
Variable upstream : nat → response.

(** *** Rendering *)

(** One character of [repr(s)], inside the quote [q]. *)
Definition repr_char (q c : N) : pystr :=
  (if (c =? q) || (c =? 92) then [92; c]
   else if c =? 9 then lit "\t"
   else if c =? 10 then lit "\n"
   else if c =? 13 then lit "\r"
   else if (c <? 32) || (c =? 127) then lit "\x" ++ hex 2 c
   else if c <? 127 then [c]
   else if isprintable c then [c]
   else if c <? 256 then lit "\x" ++ hex 2 c
   else if c <? 65536 then lit "\u" ++ hex 4 c
   else lit "\U" ++ hex 8 c)%N.

(** [repr(s)] of a string: single quotes, unless the string holds a
    single quote and no double quote. *)
Definition str_repr (s : pystr) : pystr :=
  let q := (if bool_decide (39 ∈ s) && negb (bool_decide (34 ∈ s))
            then 34 else 39)%N in
  [q] ++ concat (repr_char q <$> s) ++ [q].

(** [repr(v)]. *)
Fixpoint py_repr (v : pyobj) : pystr :=
  match v with
  | PyNone => lit "None"
  | PyBool true => lit "True"
  | PyBool false => lit "False"
  | PyInt z => int_str z
  | PyFloat shown => shown
  | PyStr s => str_repr s
  | PyList items => lit "[" ++ join (lit ", ") (map py_repr items) ++ lit "]"
  | PyDict items =>
      lit "{"
      ++ join (lit ", ")
           (map (λ kv, str_repr kv.1 ++ lit ": " ++ py_repr kv.2) items)
      ++ lit "}"
  end.

(** [str(v)], which is what an f-string field [{v}] prints. *)
Definition py_str (v : pyobj) : pystr :=
  match v with
  | PyStr s => s
  | _ => py_repr v
  end.


(** *** Requests and tools *)

(** The HTTP client: the request goes out and the response comes back. *)
Definition send (req : request) : M response := λ p,
  (Returned (upstream (length (sent p))), sending req p).

(** Reading the global [twitter_auth]. *)
Definition the_auth : M OAuth1 := λ p, (Returned (twitter_auth p), p).

(** [resp.json()]. *)
Definition json (resp : response) : M pyobj :=
  match decoded resp with
  | Some v => mret v
  | None => lift (Raised JSONDecodeError)
  end.

(** Lines 41-49.  [reply_to_id] is [None] or the identifier read from
    the previous response, whatever JSON value that was. *)
Definition _post_tweet (text : pystr) (reply_to_id : pyobj) : M reply :=
  auth ← the_auth;
  resp ← send (post_request auth text reply_to_id);
  body ← json resp;
  mret {| status := status_code resp; data := body |}.

(** Lines 52-59. *)
Definition _get_tweet (tweet_id : pystr) : M reply :=
  auth ← the_auth;
  resp ← send (get_tweet_request auth tweet_id);
  body ← json resp;
  mret {| status := status_code resp; data := body |}.

(** Lines 62-66: the body is decoded only if [resp.text] is not empty. *)
Definition _delete_tweet (tweet_id : pystr) : M reply :=
  auth ← the_auth;
  resp ← send (delete_tweet_request auth tweet_id);
  body ← (if nonempty (text resp) then json resp else mret (PyDict []));
  mret {| status := status_code resp; data := body |}.

(** Lines 69-76. *)
Definition _get_me : M reply :=
  auth ← the_auth;
  resp ← send (get_me_request auth);
  body ← json resp;
  mret {| status := status_code resp; data := body |}.

(** Lines 82-97.  The fields of the f-string are evaluated left to
    right, after [data] and [metrics]. *)
Definition x_get_me : M pystr :=
  result ← _get_me;
  if negb (status result =? 200)
  then mret (lit "Error: " ++ py_str (data result))
  else
    data ← lift (getitem (data result) (lit "data"));
    metrics ← lift (get data (lit "public_metrics") (PyDict []));
    username ← lift (getitem data (lit "username"));
    name ← lift (getitem data (lit "name"));
    id ← lift (getitem data (lit "id"));
    followers ← lift (get metrics (lit "followers_count") (PyStr (lit "N/A")));
    following ← lift (get metrics (lit "following_count") (PyStr (lit "N/A")));
    tweet_count ← lift (get metrics (lit "tweet_count") (PyStr (lit "N/A")));
    mret (lit "Authenticated as: @" ++ py_str username ++ NL
          ++ lit "Name: " ++ py_str name ++ NL
          ++ lit "ID: " ++ py_str id ++ NL
          ++ lit "Followers: " ++ py_str followers ++ NL
          ++ lit "Following: " ++ py_str following ++ NL
          ++ lit "Tweets: " ++ py_str tweet_count).

Definition status_url : pystr := lit "https://twitter.com/i/status/".

(** Lines 101-120. *)
Definition x_post_tweet (text : pystr) : M pystr :=
  if 280 <? len text
  then mret (lit "Error: Tweet too long (" ++ int_str (len text)
             ++ lit " chars). Max 280.")
  else
    result ← _post_tweet text PyNone;
    if negb (status result =? 201)
    then mret (lit "Error posting tweet: " ++ py_str (data result))
    else
      data ← lift (getitem (data result) (lit "data"));
      tweet_id ← lift (getitem data (lit "id"));
      mret (lit "Tweet posted!" ++ NL ++ lit "ID: " ++ py_str tweet_id ++ NL
            ++ lit "URL: " ++ status_url ++ py_str tweet_id).

(** Line 137: the comprehension that splits, trims and drops the empty
    segments. *)
Definition thread_tweets (text : pystr) : list pystr :=
  strip <$> List.filter (λ t, nonempty (strip t)) (split THREAD_SEPARATOR text).

(** Lines 143-145: the validation loop, [i] being the index of the head
    of [tweets]; [Some] is the early return. *)
Fixpoint validate_lengths (i : Z) (tweets : list pystr) : option pystr :=
  match tweets with
  | [] => None
  | tweet :: rest =>
      if 280 <? len tweet
      then Some (lit "Error: Tweet " ++ int_str (i + 1) ++ lit " too long ("
                 ++ int_str (len tweet) ++ lit " chars). Max 280.")
      else validate_lengths (i + 1) rest
  end.

(** Lines 160-164: the summary of a posted thread. *)
Definition thread_posted (posted_ids : list pyobj) : M pystr :=
  let urls := (λ tid, status_url ++ py_str tid) <$> posted_ids in
  match urls with
  | [] => lift (Raised IndexError)
  | first :: _ =>
      mret (lit "Thread posted! (" ++ int_str (Z.of_nat (length posted_ids))
            ++ lit " tweets)" ++ NL
            ++ lit "IDs: " ++ py_str (PyList posted_ids) ++ NL
            ++ lit "First tweet: " ++ first)
  end.

(** Lines 150-164: the posting loop from index [i] on, then the summary. *)
Fixpoint post_tweets (i : Z) (tweets : list pystr) (posted_ids : list pyobj)
    (reply_to : pyobj) : M pystr :=
  match tweets with
  | [] => thread_posted posted_ids
  | tweet :: rest =>
      result ← _post_tweet tweet reply_to;
      if negb (status result =? 201)
      then mret (lit "Error posting tweet " ++ int_str (i + 1) ++ lit ": "
                 ++ py_str (data result) ++ NL
                 ++ lit "Posted so far: " ++ py_str (PyList posted_ids))
      else
        data ← lift (getitem (data result) (lit "data"));
        tweet_id ← lift (getitem data (lit "id"));
        post_tweets (i + 1) rest (posted_ids ++ [tweet_id]) tweet_id
  end.

(** Lines 124-164. *)
Definition x_post_thread (text : pystr) : M pystr :=
  let tweets := thread_tweets text in
  if Z.of_nat (length tweets) <? 2
  then mret (lit "Error: Thread must have at least 2 tweets. Use '\n\n---\n\n' as separator.")
  else
    match validate_lengths 0 tweets with
    | Some error => mret error
    | None => post_tweets 0 tweets [] PyNone
    end.

(** Lines 168-196. *)
Definition x_get_tweet (tweet_id : pystr) : M pystr :=
  result ← _get_tweet tweet_id;
  if negb (status result =? 200)
  then mret (lit "Error: " ++ py_str (data result))
  else
    data ← lift (getitem (data result) (lit "data"));
    metrics ← lift (get data (lit "public_metrics") (PyDict []));
    id ← lift (getitem data (lit "id"));
    text ← lift (get data (lit "text") (PyStr (lit "N/A")));
    created_at ← lift (get data (lit "created_at") (PyStr (lit "N/A")));
    likes ← lift (get metrics (lit "like_count") (PyInt 0));
    retweets ← lift (get metrics (lit "retweet_count") (PyInt 0));
    replies ← lift (get metrics (lit "reply_count") (PyInt 0));
    impressions ← lift (get metrics (lit "impression_count") (PyInt 0));
    quotes ← lift (get metrics (lit "quote_count") (PyInt 0));
    bookmarks ← lift (get metrics (lit "bookmark_count") (PyInt 0));
    mret (lit "Tweet ID: " ++ py_str id ++ NL
          ++ lit "Text: " ++ py_str text ++ NL
          ++ lit "Created: " ++ py_str created_at ++ NL
          ++ NL
          ++ lit "Metrics:" ++ NL
          ++ lit "- Likes: " ++ py_str likes ++ NL
          ++ lit "- Retweets: " ++ py_str retweets ++ NL
          ++ lit "- Replies: " ++ py_str replies ++ NL
          ++ lit "- Impressions: " ++ py_str impressions ++ NL
          ++ lit "- Quotes: " ++ py_str quotes ++ NL
          ++ lit "- Bookmarks: " ++ py_str bookmarks).

(** Lines 200-215. *)
Definition x_delete_tweet (tweet_id : pystr) : M pystr :=
  result ← _delete_tweet tweet_id;
  if negb (status result =? 200)
  then mret (lit "Error deleting tweet: " ++ py_str (data result))
  else mret (lit "Tweet " ++ tweet_id ++ lit " deleted successfully.").

(** The tool surface: what the host can call. *)
Inductive tool :=
| GetMe
| PostTweet (text : pystr)
| PostThread (text : pystr)
| GetTweet (tweet_id : pystr)
| DeleteTweet (tweet_id : pystr).

Definition call (t : tool) : M pystr :=
  match t with
  | GetMe => x_get_me
  | PostTweet text => x_post_tweet text
  | PostThread text => x_post_thread text
  | GetTweet tweet_id => x_get_tweet tweet_id
  | DeleteTweet tweet_id => x_delete_tweet tweet_id
  end.

(** *** Vocabulary of the properties *)


(** The body as the tool reads it: [resp.json()], except that
    [_delete_tweet] takes an empty body for [{}] without decoding it. *)
Definition body_read (t : tool) (resp : response) : option pyobj :=
  match t with
  | DeleteTweet _ =>
      if nonempty (text resp) then decoded resp else Some (PyDict [])
  | _ => decoded resp
  end.


(** [data.get("public_metrics", {})] as a dict, when it is one. *)
Definition metrics_of (data : list (pystr * pyobj))
    : option (list (pystr * pyobj)) :=
  match assoc (lit "public_metrics") data with
  | None => Some []
  | Some (PyDict metrics) => Some metrics
  | Some _ => None
  end.



(** A field of the formatted output: the value under [key], or [dflt]
    when the key is missing, as an f-string prints it. *)
Definition shown (items : list (pystr * pyobj)) (key : string)
    (dflt : pyobj) : pystr :=
  py_str (default dflt (assoc (lit key) items)).

(** The module globals of a process. *)
Definition globals (p : process) : list pystr * OAuth1 :=
  ([TWITTER_API_KEY p; TWITTER_API_KEY_SECRET p; TWITTER_ACCESS_TOKEN p;
    TWITTER_ACCESS_TOKEN_SECRET p], twitter_auth p).

(** A computation that sends nothing. *)
Definition silent {A} (m : M A) : Prop := ∀ p, (m p).2 = p.

(** The host calls the tools one after the other; a call that raises
    is reported to the host and the process goes on. *)
Fixpoint session (calls : list tool) (p : process) : process :=
  match calls with
  | [] => p
  | t :: rest => session rest (call t p).2
  end.

(** A computation that leaves the module globals as they were. *)
Definition keeps {A} (m : M A) : Prop := ∀ p, globals (m p).2 = globals p.

(** The names of the four credential variables. *)
Definition credential_names : list pystr :=
  [lit "TWITTER_API_KEY"; lit "TWITTER_API_KEY_SECRET";
   lit "TWITTER_ACCESS_TOKEN"; lit "TWITTER_ACCESS_TOKEN_SECRET"].

(** [sub in s], decided. *)
Fixpoint find (sub s : pystr) : bool :=
  startswith sub s ||
  match s with
  | [] => false
  | _ :: s' => find sub s'
  end.


(** *** Running a computation *)

Lemma bind_returned {A B} (m : M A) (f : A → M B) p a p' :
  m p = (Returned a, p') → (m ≫= f) p = f a p'.
Proof. intros H. unfold mbind, M_bind. by rewrite H. Qed.

Lemma bind_raised {A B} (m : M A) (f : A → M B) p e p' :
  m p = (Raised e, p') → (m ≫= f) p = (Raised e, p').
Proof. intros H. unfold mbind, M_bind. by rewrite H. Qed.

Lemma logging_nil p : logging [] p = p.
Proof. destruct p. unfold logging. simpl. by rewrite app_nil_r. Qed.

Lemma logging_logging l1 l2 p : logging l2 (logging l1 p) = logging (l1 ++ l2) p.
Proof. unfold logging. simpl. by rewrite app_assoc. Qed.

Lemma sent_logging reqs p : sent (logging reqs p) = sent p ++ reqs.
Proof. done. Qed.

Lemma auth_logging reqs p : twitter_auth (logging reqs p) = twitter_auth p.
Proof. done. Qed.

(** What [_post_tweet] does: one request goes out, and the call raises
    exactly when the body of the response does not decode. *)
Lemma post_tweet_run text reply_to_id p :
  _post_tweet text reply_to_id p =
    (match decoded (upstream (length (sent p))) with
     | Some body =>
         Returned {| status := status_code (upstream (length (sent p)));
                     data := body |}
     | None => Raised JSONDecodeError
     end,
     sending (post_request (twitter_auth p) text reply_to_id) p).
Proof.
  unfold _post_tweet, the_auth, send, json, mbind, M_bind, mret, M_ret, lift.
  by destruct (decoded _).
Qed.

Lemma post_tweet_returns text reply_to_id p body :
  decoded (upstream (length (sent p))) = Some body →
  _post_tweet text reply_to_id p =
    (Returned {| status := status_code (upstream (length (sent p)));
                 data := body |},
     sending (post_request (twitter_auth p) text reply_to_id) p).
Proof. intros H. by rewrite post_tweet_run, H. Qed.

Lemma post_tweet_raises text reply_to_id p :
  decoded (upstream (length (sent p))) = None →
  _post_tweet text reply_to_id p =
    (Raised JSONDecodeError,
     sending (post_request (twitter_auth p) text reply_to_id) p).
Proof. intros H. by rewrite post_tweet_run, H. Qed.

(** Reading [body["data"]["id"]] step by step. *)
Lemma returned_id_inv resp id :
  returned_id resp = Some id →
  ∃ body d, decoded resp = Some body
    ∧ getitem body (lit "data") = Returned d
    ∧ getitem d (lit "id") = Returned id.
Proof.
  unfold returned_id. intros H.
  destruct (decoded resp) as [body|]; [|done]. cbn [mbind option_bind] in H.
  destruct (getitem body _) as [d|] eqn:Hd; [|done].
  cbn [ok mbind option_bind] in H.
  destruct (getitem d _) as [x|] eqn:Hx; [|done]. cbn [ok] in H.
  exists body, d. by simplify_eq.
Qed.

Lemma returned_id_none resp body :
  decoded resp = Some body → returned_id resp = None →
  (∃ e, getitem body (lit "data") = Raised e)
  ∨ (∃ d e, getitem body (lit "data") = Returned d
        ∧ getitem d (lit "id") = Raised e).
Proof.
  unfold returned_id. intros -> H. cbn [mbind option_bind] in H.
  destruct (getitem body _) as [d|e]; [|by left; exists e].
  cbn [ok mbind option_bind] in H. right.
  destruct (getitem d _) as [x|e] eqn:Hx; [done|]. by exists d, e.
Qed.

(** The validation loop stops at the first tweet over the limit. *)
Lemma validate_lengths_first i pre tweet rest :
  Forall (λ t, len t ≤ 280) pre → 280 < len tweet →
  validate_lengths i (pre ++ tweet :: rest) =
    Some (lit "Error: Tweet " ++ int_str (i + Z.of_nat (length pre) + 1)
          ++ lit " too long (" ++ int_str (len tweet)
          ++ lit " chars). Max 280.").
Proof.
  intros Hpre Hlong. revert i.
  induction Hpre as [|t pre Ht _ IH]; intros i; cbn [validate_lengths app length].
  - destruct (Z.ltb_spec 280 (len tweet)); [|lia].
    by rewrite Z.add_0_r.
  - destruct (Z.ltb_spec 280 (len t)); [lia|].
    rewrite IH, Nat2Z.inj_succ.
    by replace (i + 1 + Z.of_nat (length pre) + 1)
      with (i + Z.succ (Z.of_nat (length pre)) + 1) by lia.
Qed.

Lemma validate_lengths_pass i tweets :
  Forall (λ t, len t ≤ 280) tweets → validate_lengths i tweets = None.
Proof.
  intros H. revert i. induction H as [|t tweets Ht _ IH]; intros i; simpl.
  - done.
  - destruct (Z.ltb_spec 280 (len t)); [lia|]. apply IH.
Qed.

(** Any list with a tweet over the limit has a first one. *)
Lemma first_over_limit (tweets : list pystr) :
  Exists (λ t, 280 < len t) tweets →
  ∃ pre tweet rest, tweets = pre ++ tweet :: rest
    ∧ Forall (λ t, len t ≤ 280) pre ∧ 280 < len tweet.
Proof.
  induction tweets as [|t tweets IH]; intros H.
  - by apply Exists_nil in H.
  - destruct (Z.ltb_spec 280 (len t)) as [Hlong|Hshort].
    + exists [], t, tweets. by repeat split.
    + apply Exists_cons in H as [H|H]; [lia|].
      destruct (IH H) as (pre & tweet & rest & -> & Hpre & Hlong).
      exists (t :: pre), tweet, rest. repeat split; [|done]. by constructor.
Qed.

(** *** The posting loop *)

(** One round of the loop on a response that reports a posted tweet. *)
Lemma post_tweets_step i tweet rest posted_ids reply_to p id :
  posted (upstream (length (sent p))) id →
  post_tweets i (tweet :: rest) posted_ids reply_to p =
    post_tweets (i + 1) rest (posted_ids ++ [id]) id
      (sending (post_request (twitter_auth p) tweet reply_to) p).
Proof.
  intros [Hstatus Hid].
  destruct (returned_id_inv _ _ Hid) as (body & d & Hbody & Hd & Hx).
  cbn [post_tweets].
  erewrite bind_returned; [|by apply post_tweet_returns].
  cbn [status data]. rewrite Hstatus. cbn [Z.eqb Pos.eqb negb].
  erewrite bind_returned; [|by unfold lift; rewrite Hd].
  erewrite bind_returned; [|by unfold lift; rewrite Hx]. done.
Qed.

(** One round on any other status: the loop ends with the error string. *)
Lemma post_tweets_fail i tweet rest posted_ids reply_to p body :
  status_code (upstream (length (sent p))) ≠ 201 →
  decoded (upstream (length (sent p))) = Some body →
  post_tweets i (tweet :: rest) posted_ids reply_to p =
    (Returned (lit "Error posting tweet " ++ int_str (i + 1) ++ lit ": "
               ++ py_str body ++ NL
               ++ lit "Posted so far: " ++ py_str (PyList posted_ids)),
     sending (post_request (twitter_auth p) tweet reply_to) p).
Proof.
  intros Hstatus Hbody. cbn [post_tweets].
  erewrite bind_returned; [|by apply post_tweet_returns].
  cbn [status data].
  by destruct (Z.eqb_spec (status_code (upstream (length (sent p)))) 201).
Qed.

(** One round on a body that is not JSON: [resp.json()] raises. *)
Lemma post_tweets_raise i tweet rest posted_ids reply_to p :
  decoded (upstream (length (sent p))) = None →
  post_tweets i (tweet :: rest) posted_ids reply_to p =
    (Raised JSONDecodeError,
     sending (post_request (twitter_auth p) tweet reply_to) p).
Proof.
  intros Hbody. cbn [post_tweets].
  erewrite bind_raised; [done|]. by apply post_tweet_raises.
Qed.

(** One round on status 201 without [data.id]: the subscript raises. *)
Lemma post_tweets_no_id i tweet rest posted_ids reply_to p body :
  status_code (upstream (length (sent p))) = 201 →
  decoded (upstream (length (sent p))) = Some body →
  returned_id (upstream (length (sent p))) = None →
  (post_tweets i (tweet :: rest) posted_ids reply_to p).2
  = sending (post_request (twitter_auth p) tweet reply_to) p
  ∧ ∃ e, (post_tweets i (tweet :: rest) posted_ids reply_to p).1 = Raised e.
Proof.
  intros Hs Hbody Hid. cbn [post_tweets].
  erewrite bind_returned; [|by apply post_tweet_returns].
  cbn [status data]. rewrite Hs. cbn [Z.eqb Pos.eqb negb].
  destruct (returned_id_none _ _ Hbody Hid) as [[e He]|(d & e & Hd & He)].
  - erewrite bind_raised; [|by unfold lift; rewrite He]. eauto.
  - erewrite bind_returned; [|by unfold lift; rewrite Hd].
    erewrite bind_raised; [|by unfold lift; rewrite He]. eauto.
Qed.



(** Whatever the responses, the loop only appends to the log. *)
Lemma post_tweets_extends tweets : ∀ i posted_ids reply_to tweet p,
  ∃ later,
    (post_tweets (i - 1) (tweet :: tweets) posted_ids reply_to p).2
    = logging (post_request (twitter_auth p) tweet reply_to :: later) p.
Proof.
  induction tweets as [|next tweets IH]; intros i posted_ids reply_to tweet p;
    (destruct (decoded (upstream (length (sent p)))) as [body|] eqn:Hbody;
      [|exists []; by rewrite post_tweets_raise]);
    (destruct (decide (status_code (upstream (length (sent p))) = 201))
      as [Hs|Hs]; [|exists []; by erewrite post_tweets_fail]);
    (destruct (returned_id (upstream (length (sent p)))) as [id|] eqn:Hid;
      [rewrite (post_tweets_step _ _ _ _ _ _ id) by done|]).
  - exists []. cbn [post_tweets]. unfold thread_posted. by destruct (_ <$> _).
  - exists []. by eapply proj1, post_tweets_no_id.
  - replace (i - 1 + 1) with (i + 1 - 1) by lia.
    destruct (IH (i + 1) (posted_ids ++ [id]) id next
                (sending (post_request (twitter_auth p) tweet reply_to) p))
      as [later ->].
    eexists. unfold sending. by rewrite logging_logging.
  - exists []. by eapply proj1, post_tweets_no_id.
Qed.

(** *** Local validation *)

(** C4. A text of more than 280 characters makes [x_post_tweet] return
    the error string that reports the length and the limit of 280; the
    process is left as it was, so no request went out. *)
Theorem x_post_tweet_too_long text p :
  280 < len text →
  x_post_tweet text p =
    (Returned (lit "Error: Tweet too long (" ++ int_str (len text)
               ++ lit " chars). Max 280."), p).
Proof.
  intros Hlong. unfold x_post_tweet.
  by destruct (Z.ltb_spec 280 (len text)); [|lia].
Qed.

(** C5. A thread input with fewer than 2 non-empty trimmed segments
    makes [x_post_thread] return an error string; the process is left as
    it was, so no request went out. *)
Theorem x_post_thread_too_few text p :
  (length (thread_tweets text) < 2)%nat →
  x_post_thread text p =
    (Returned (lit "Error: Thread must have at least 2 tweets. Use '\n\n---\n\n' as separator."), p).
Proof.
  intros Hfew. unfold x_post_thread.
  by destruct (Z.ltb_spec (Z.of_nat (length (thread_tweets text))) 2); [|lia].
Qed.

(** C3. A thread input with at least 2 segments, one of them over 280
    characters, has a first such segment, at index [j] say;
    [x_post_thread] returns the error string that names its position
    [j + 1] and its length, and the process is left as it was: no request
    went out, whatever the segments before and after it. *)
Theorem x_post_thread_segment_too_long text p :
  (2 ≤ length (thread_tweets text))%nat →
  Exists (λ t, 280 < len t) (thread_tweets text) →
  ∃ (j : nat) (tweet : pystr),
    thread_tweets text !! j = Some tweet
    ∧ 280 < len tweet
    ∧ (∀ (k : nat) t, (k < j)%nat → thread_tweets text !! k = Some t →
         len t ≤ 280)
    ∧ x_post_thread text p =
        (Returned (lit "Error: Tweet " ++ int_str (Z.of_nat j + 1)
                   ++ lit " too long (" ++ int_str (len tweet)
                   ++ lit " chars). Max 280."), p).
Proof.
  intros Hmany Hlong. unfold x_post_thread.
  destruct (Z.ltb_spec (Z.of_nat (length (thread_tweets text))) 2); [lia|].
  destruct (first_over_limit _ Hlong) as (pre & tweet & rest & Heq & Hpre & Ht).
  exists (length pre), tweet. rewrite Heq.
  split; [by rewrite list_lookup_middle|].
  split; [done|]. split.
  - intros k t Hk Hlook. rewrite lookup_app_l in Hlook by done.
    eapply (Forall_lookup_1 _ _ _ _ Hpre Hlook).
  - by rewrite (validate_lengths_first 0 pre tweet rest Hpre Ht).
Qed.

(** C10. The limit is inclusive.  A text of exactly 280 characters is
    past the check of [x_post_tweet]: the request that carries it goes
    out.  In the loop of [x_post_thread] a segment of exactly 280
    characters is stepped over, and a thread whose segments all have at
    most 280 characters reaches the posting loop: the request for its
    first segment goes out. *)
Theorem limit_inclusive :
  (∀ text p, len text = 280 →
     sent (x_post_tweet text p).2
     = sent p ++ [post_request (twitter_auth p) text PyNone])
  ∧ (∀ i tweet rest, len tweet = 280 →
       validate_lengths i (tweet :: rest) = validate_lengths (i + 1) rest)
  ∧ (∀ text p, (2 ≤ length (thread_tweets text))%nat →
       Forall (λ t, len t ≤ 280) (thread_tweets text) →
       ∃ first others later,
         thread_tweets text = first :: others
         ∧ sent (x_post_thread text p).2
           = sent p ++ post_request (twitter_auth p) first PyNone :: later).
Proof.
  split; [|split].
  - intros text p Hlen. unfold x_post_tweet.
    destruct (Z.ltb_spec 280 (len text)); [lia|].
    unfold mbind, M_bind. rewrite post_tweet_run.
    destruct (decoded _) as [body|]; [|done]. simpl.
    destruct (negb _); [done|].
    unfold lift. destruct (getitem body _) as [d|]; [|done].
    by destruct (getitem d _).
  - intros i tweet rest Hlen. simpl.
    by destruct (Z.ltb_spec 280 (len tweet)); [lia|].
  - intros text p Hmany Hall. unfold x_post_thread.
    destruct (Z.ltb_spec (Z.of_nat (length (thread_tweets text))) 2); [lia|].
    rewrite validate_lengths_pass by done.
    destruct (thread_tweets text) as [|first others]; [simpl in Hmany; lia|].
    replace 0 with (1 - 1) by lia.
    destruct (post_tweets_extends others 1 [] PyNone first p) as [later Hp].
    exists first, others, later. by rewrite Hp, sent_logging.
Qed.

(** *** Threads *)

Lemma request_text_post auth tweet reply_to :
  request_text (post_request auth tweet reply_to) = Some (PyStr tweet).
Proof.
  unfold request_text, post_request, payload.
  destruct (truthy reply_to); vm_compute; reflexivity.
Qed.

Lemma reply_target_post auth tweet reply_to :
  reply_target (post_request auth tweet reply_to)
  = if truthy reply_to then Some reply_to else None.
Proof.
  unfold reply_target, post_request, payload.
  destruct (truthy reply_to); vm_compute; reflexivity.
Qed.











(** *** Single requests *)

Ltac run :=
  unfold mbind, M_bind, mret, M_ret, lift, the_auth, send, json in *.

Lemma get_tweet_run tweet_id p :
  _get_tweet tweet_id p =
    (match decoded (upstream (length (sent p))) with
     | Some body =>
         Returned {| status := status_code (upstream (length (sent p)));
                     data := body |}
     | None => Raised JSONDecodeError
     end,
     sending (get_tweet_request (twitter_auth p) tweet_id) p).
Proof. unfold _get_tweet. run. by destruct (decoded _). Qed.

Lemma get_me_run p :
  _get_me p =
    (match decoded (upstream (length (sent p))) with
     | Some body =>
         Returned {| status := status_code (upstream (length (sent p)));
                     data := body |}
     | None => Raised JSONDecodeError
     end,
     sending (get_me_request (twitter_auth p)) p).
Proof. unfold _get_me. run. by destruct (decoded _). Qed.

Lemma delete_tweet_run tweet_id p :
  _delete_tweet tweet_id p =
    (match body_read (DeleteTweet tweet_id) (upstream (length (sent p))) with
     | Some body =>
         Returned {| status := status_code (upstream (length (sent p)));
                     data := body |}
     | None => Raised JSONDecodeError
     end,
     sending (delete_tweet_request (twitter_auth p) tweet_id) p).
Proof.
  unfold _delete_tweet, body_read. run.
  destruct (nonempty _); [|done]. by destruct (decoded _).
Qed.

Lemma metrics_of_get d metrics :
  metrics_of d = Some metrics →
  get (PyDict d) (lit "public_metrics") (PyDict []) = Returned (PyDict metrics).
Proof.
  unfold metrics_of, get. destruct (assoc _ d) as [[]|]; naive_solver.
Qed.

Lemma getitem_dict d key v :
  assoc key d = Some v → getitem (PyDict d) key = Returned v.
Proof. intros H. unfold getitem. by rewrite H. Qed.








(** *** Success paths *)

Lemma x_post_tweet_success text p id :
  len text ≤ 280 →
  posted (upstream (length (sent p))) id →
  x_post_tweet text p =
    (Returned (lit "Tweet posted!" ++ NL ++ lit "ID: " ++ py_str id ++ NL
               ++ lit "URL: " ++ status_url ++ py_str id),
     sending (post_request (twitter_auth p) text PyNone) p).
Proof.
  intros Hlen [Hs Hid]. unfold x_post_tweet.
  destruct (Z.ltb_spec 280 (len text)); [lia|].
  destruct (returned_id_inv _ _ Hid) as (body & d & Hbody & Hd & Hx).
  erewrite bind_returned; [|by apply post_tweet_returns].
  cbn [status data]. rewrite Hs. cbn [Z.eqb Pos.eqb negb].
  erewrite bind_returned; [|by unfold lift; rewrite Hd].
  erewrite bind_returned; [|by unfold lift; rewrite Hx]. done.
Qed.

Lemma x_get_tweet_success tweet_id p body d metrics id :
  status_code (upstream (length (sent p))) = 200 →
  decoded (upstream (length (sent p))) = Some body →
  getitem body (lit "data") = Returned (PyDict d) →
  assoc (lit "id") d = Some id →
  metrics_of d = Some metrics →
  x_get_tweet tweet_id p =
    (Returned
       (lit "Tweet ID: " ++ py_str id ++ NL
        ++ lit "Text: " ++ shown d "text" (PyStr (lit "N/A")) ++ NL
        ++ lit "Created: " ++ shown d "created_at" (PyStr (lit "N/A")) ++ NL
        ++ NL
        ++ lit "Metrics:" ++ NL
        ++ lit "- Likes: " ++ shown metrics "like_count" (PyInt 0) ++ NL
        ++ lit "- Retweets: " ++ shown metrics "retweet_count" (PyInt 0) ++ NL
        ++ lit "- Replies: " ++ shown metrics "reply_count" (PyInt 0) ++ NL
        ++ lit "- Impressions: " ++ shown metrics "impression_count" (PyInt 0)
        ++ NL
        ++ lit "- Quotes: " ++ shown metrics "quote_count" (PyInt 0) ++ NL
        ++ lit "- Bookmarks: " ++ shown metrics "bookmark_count" (PyInt 0)),
     sending (get_tweet_request (twitter_auth p) tweet_id) p).
Proof.
  intros Hs Hbody Hd Hid Hm. unfold x_get_tweet.
  erewrite bind_returned; [|by rewrite get_tweet_run, Hbody].
  cbn [status data]. rewrite Hs. cbn [Z.eqb Pos.eqb negb].
  erewrite bind_returned; [|by unfold lift; rewrite Hd].
  erewrite bind_returned; [|by unfold lift; rewrite (metrics_of_get d metrics)].
  erewrite bind_returned; [|by unfold lift; rewrite (getitem_dict d _ id)].
  done.
Qed.

Lemma x_get_me_success p body d metrics username name id :
  status_code (upstream (length (sent p))) = 200 →
  decoded (upstream (length (sent p))) = Some body →
  getitem body (lit "data") = Returned (PyDict d) →
  assoc (lit "username") d = Some username →
  assoc (lit "name") d = Some name →
  assoc (lit "id") d = Some id →
  metrics_of d = Some metrics →
  x_get_me p =
    (Returned
       (lit "Authenticated as: @" ++ py_str username ++ NL
        ++ lit "Name: " ++ py_str name ++ NL
        ++ lit "ID: " ++ py_str id ++ NL
        ++ lit "Followers: "
        ++ shown metrics "followers_count" (PyStr (lit "N/A")) ++ NL
        ++ lit "Following: "
        ++ shown metrics "following_count" (PyStr (lit "N/A")) ++ NL
        ++ lit "Tweets: " ++ shown metrics "tweet_count" (PyStr (lit "N/A"))),
     sending (get_me_request (twitter_auth p)) p).
Proof.
  intros Hs Hbody Hd Hu Hn Hid Hm. unfold x_get_me.
  erewrite bind_returned; [|by rewrite get_me_run, Hbody].
  cbn [status data]. rewrite Hs. cbn [Z.eqb Pos.eqb negb].
  erewrite bind_returned; [|by unfold lift; rewrite Hd].
  erewrite bind_returned; [|by unfold lift; rewrite (metrics_of_get d metrics)].
  erewrite bind_returned; [|by unfold lift; rewrite (getitem_dict d _ username)].
  erewrite bind_returned; [|by unfold lift; rewrite (getitem_dict d _ name)].
  erewrite bind_returned; [|by unfold lift; rewrite (getitem_dict d _ id)].
  done.
Qed.

(** C7, amended.  On a response of status 200 whose [data] is a dict,
    [x_get_tweet] needs the key [id] and [x_get_me] the keys [username],
    [name] and [id]; [public_metrics], when present, has to be a dict.
    Then the tool returns the documented layout, where a missing [text]
    or [created_at] and a missing follower, following or tweet count
    read N/A, and a missing like, retweet, reply, impression, quote or
    bookmark count reads 0; a missing [public_metrics] counts as all of
    its fields missing. *)
Theorem success_formatting p body d metrics :
  status_code (upstream (length (sent p))) = 200 →
  decoded (upstream (length (sent p))) = Some body →
  getitem body (lit "data") = Returned (PyDict d) →
  metrics_of d = Some metrics →
  (∀ tweet_id id, assoc (lit "id") d = Some id →
     (x_get_tweet tweet_id p).1 =
       Returned
         (lit "Tweet ID: " ++ py_str id ++ NL
          ++ lit "Text: " ++ shown d "text" (PyStr (lit "N/A")) ++ NL
          ++ lit "Created: " ++ shown d "created_at" (PyStr (lit "N/A")) ++ NL
          ++ NL
          ++ lit "Metrics:" ++ NL
          ++ lit "- Likes: " ++ shown metrics "like_count" (PyInt 0) ++ NL
          ++ lit "- Retweets: " ++ shown metrics "retweet_count" (PyInt 0)
          ++ NL
          ++ lit "- Replies: " ++ shown metrics "reply_count" (PyInt 0) ++ NL
          ++ lit "- Impressions: "
          ++ shown metrics "impression_count" (PyInt 0) ++ NL
          ++ lit "- Quotes: " ++ shown metrics "quote_count" (PyInt 0) ++ NL
          ++ lit "- Bookmarks: " ++ shown metrics "bookmark_count" (PyInt 0)))
  ∧ (∀ username name id,
       assoc (lit "username") d = Some username →
       assoc (lit "name") d = Some name →
       assoc (lit "id") d = Some id →
       (x_get_me p).1 =
         Returned
           (lit "Authenticated as: @" ++ py_str username ++ NL
            ++ lit "Name: " ++ py_str name ++ NL
            ++ lit "ID: " ++ py_str id ++ NL
            ++ lit "Followers: "
            ++ shown metrics "followers_count" (PyStr (lit "N/A")) ++ NL
            ++ lit "Following: "
            ++ shown metrics "following_count" (PyStr (lit "N/A")) ++ NL
            ++ lit "Tweets: "
            ++ shown metrics "tweet_count" (PyStr (lit "N/A"))))
  ∧ (∀ key dflt, assoc (lit key) d = None → shown d key dflt = py_str dflt)
  ∧ (∀ key dflt, assoc (lit key) metrics = None →
       shown metrics key dflt = py_str dflt)
  ∧ (assoc (lit "public_metrics") d = None → metrics = []).
Proof.
  intros Hs Hbody Hd Hm. repeat split.
  - intros tweet_id id Hid.
    by rewrite (x_get_tweet_success tweet_id p body d metrics id).
  - intros username name id Hu Hn Hid.
    by rewrite (x_get_me_success p body d metrics username name id).
  - intros key dflt Hkey. unfold shown. by rewrite Hkey.
  - intros key dflt Hkey. unfold shown. by rewrite Hkey.
  - intros Hnone. unfold metrics_of in Hm. rewrite Hnone in Hm. congruence.
Qed.

(** *** No exception on readable responses *)



(** *** The credentials *)

Lemma keeps_ret {A} (a : A) : keeps (mret a).
Proof. done. Qed.

Lemma keeps_lift {A} (r : result A) : keeps (lift r).
Proof. done. Qed.

Lemma keeps_auth : keeps the_auth.
Proof. done. Qed.

Lemma keeps_send req : keeps (send req).
Proof. done. Qed.

Lemma keeps_json resp : keeps (json resp).
Proof. unfold json. by destruct (decoded resp). Qed.

Lemma keeps_bind {A B} (m : M A) (f : A → M B) :
  keeps m → (∀ a, keeps (f a)) → keeps (m ≫= f).
Proof.
  intros Hm Hf p. specialize (Hm p). unfold mbind, M_bind.
  destruct (m p) as [[a|e] p']; [|done]. rewrite <- Hm. apply Hf.
Qed.

Ltac keeps :=
  repeat first
    [ apply keeps_ret | apply keeps_lift | apply keeps_auth
    | apply keeps_send | apply keeps_json
    | apply keeps_bind; [|intros ?]
    | match goal with
      | |- keeps (if ?b then _ else _) => destruct b
      | |- keeps (match ?x with _ => _ end) => destruct x
      end ].

Lemma keeps_post_tweet text reply_to_id : keeps (_post_tweet text reply_to_id).
Proof. unfold _post_tweet. keeps. Qed.

Lemma keeps_post_tweets tweets : ∀ i posted_ids reply_to,
  keeps (post_tweets i tweets posted_ids reply_to).
Proof.
  induction tweets as [|tweet tweets IH]; intros i posted_ids reply_to;
    cbn [post_tweets].
  - unfold thread_posted. keeps.
  - apply keeps_bind; [apply keeps_post_tweet|]. intros result.
    destruct (negb _); keeps. apply IH.
Qed.

Lemma keeps_call t : keeps (call t).
Proof.
  destruct t; cbn [call].
  - unfold x_get_me, _get_me. keeps.
  - unfold x_post_tweet. destruct (280 <? _); [keeps|].
    apply keeps_bind; [apply keeps_post_tweet|]. intros result. keeps.
  - unfold x_post_thread. destruct (_ <? 2); [keeps|].
    destruct (validate_lengths _ _); [keeps|]. apply keeps_post_tweets.
  - unfold x_get_tweet, _get_tweet. keeps.
  - unfold x_delete_tweet, _delete_tweet. keeps.
Qed.

(** C9. At start-up the four credential variables are read once each,
    in the order of the source; each credential is the value of its
    variable, or the empty string when the variable is absent, and the
    signer is built from these four; start-up has no failing path.  No
    tool call changes the credentials or the signer afterwards,
    whatever it is given and whatever comes back. *)
Theorem credentials_loaded_once (environ : gmap pystr pystr) :
  (module_init environ).2 = credential_names
  ∧ NoDup (module_init environ).2
  ∧ globals (module_init environ).1
    = ((λ name, default [] (environ !! name)) <$> credential_names,
       {| client_key := default [] (environ !! lit "TWITTER_API_KEY");
          client_secret :=
            default [] (environ !! lit "TWITTER_API_KEY_SECRET");
          resource_owner_key :=
            default [] (environ !! lit "TWITTER_ACCESS_TOKEN");
          resource_owner_secret :=
            default [] (environ !! lit "TWITTER_ACCESS_TOKEN_SECRET") |})
  ∧ sent (module_init environ).1 = []
  ∧ ∀ t p, globals (call t p).2 = globals p.
Proof.
  split; [done|]. split; [|split; [done|split; [done|]]].
  - change (module_init environ).2 with credential_names.
    apply (bool_decide_unpack (NoDup credential_names)). vm_compute.
    reflexivity.
  - intros t p. apply keeps_call.
Qed.

(** *** Splitting and trimming *)

Lemma split_go_cons sep s : ∀ skip cur,
  ∃ piece rest, split_go sep skip cur s = piece :: rest.
Proof.
  induction s as [|c s IH]; intros skip cur; cbn [split_go]; [eauto|].
  destruct skip as [|k]; [|apply IH].
  destruct (startswith sep (c :: s)); [eauto|apply IH].
Qed.

Lemma startswith_inv pre : ∀ s,
  startswith pre s = true → ∃ post, s = pre ++ post.
Proof.
  induction pre as [|a pre IH]; intros [|b s] H; cbn [startswith] in H;
    try done; [by exists []|by eexists|].
  destruct (decide (a = b)) as [->|]; [|done].
  destruct (IH s H) as [post ->]. by exists post.
Qed.

Lemma join_split_go sep s : ∀ skip cur,
  sep ≠ [] →
  join sep (split_go sep skip cur s) = reverse cur ++ drop skip s.
Proof.
  induction s as [|c s IH]; intros skip cur Hsep; cbn [split_go].
  - cbn [join]. by rewrite drop_nil, app_nil_r.
  - destruct skip as [|k]; [|by rewrite IH].
    destruct (startswith sep (c :: s)) eqn:Hstart.
    + destruct (split_go_cons sep s (length sep - 1) []) as (piece & rest & Heq).
      specialize (IH (length sep - 1)%nat [] Hsep). rewrite Heq in *.
      change (join sep (reverse cur :: piece :: rest))
        with (reverse cur ++ sep ++ join sep (piece :: rest)).
      rewrite IH. cbn [reverse rev_append app].
      apply startswith_inv in Hstart as [post Hpost].
      destruct sep as [|a sep']; [done|]. cbn [app] in Hpost.
      injection Hpost as -> ->.
      replace (length (a :: sep') - 1)%nat with (length sep')
        by (cbn [length]; lia).
      by rewrite drop_app_length, drop_0.
    + rewrite IH by done. rewrite reverse_cons, drop_0, <- app_assoc. done.
Qed.

(** X1. Splitting loses nothing: joining the pieces of
    [text.split(sep)] with [sep] gives the text back, for every
    non-empty separator and so for [THREAD_SEPARATOR]. *)
Theorem join_split sep text : sep ≠ [] → join sep (split sep text) = text.
Proof.
  intros Hsep. unfold split. rewrite join_split_go by done.
  by rewrite drop_0.
Qed.

Lemma split_go_no_match sep s : ∀ cur,
  find sep s = false → split_go sep 0 cur s = [reverse cur ++ s].
Proof.
  induction s as [|c s IH]; intros cur Hfind; cbn [split_go].
  - by rewrite app_nil_r.
  - cbn [find] in Hfind. apply orb_false_iff in Hfind as [-> Hrest].
    rewrite IH by done. by rewrite reverse_cons, <- app_assoc.
Qed.

Lemma lstrip_head s c rest : lstrip s = c :: rest → isspace c = false.
Proof.
  induction s as [|a s IH]; cbn [lstrip]; [done|].
  destruct (isspace a) eqn:Ha; [done|]. intros H. by simplify_eq.
Qed.

Lemma lstrip_split s :
  ∃ pre, s = pre ++ lstrip s ∧ Forall (λ c, isspace c = true) pre.
Proof.
  induction s as [|a s (pre & Hs & Hpre)]; cbn [lstrip]; [by exists []|].
  destruct (isspace a) eqn:Ha; [|by exists []].
  exists (a :: pre). split; [by rewrite Hs at 1|by constructor].
Qed.

Lemma lstrip_stable c s : isspace c = false → lstrip (c :: s) = c :: s.
Proof. intros H. cbn [lstrip]. by rewrite H. Qed.

Lemma lstrip_snoc s c :
  isspace c = false → lstrip (s ++ [c]) = lstrip s ++ [c].
Proof.
  intros Hc. induction s as [|a s IH]; cbn [app lstrip]; [by rewrite Hc|].
  by destruct (isspace a).
Qed.

Lemma rstrip_cons c s : isspace c = false → rstrip (c :: s) = c :: rstrip s.
Proof.
  intros Hc. unfold rstrip.
  by rewrite reverse_cons, lstrip_snoc, reverse_app.
Qed.

Lemma rstrip_last s c : last (rstrip s) = Some c → isspace c = false.
Proof.
  unfold rstrip. rewrite last_reverse. destruct (lstrip _) eqn:Heq; [done|].
  intros H. simplify_eq/=. by eapply lstrip_head.
Qed.

Lemma rstrip_split s :
  ∃ post, s = rstrip s ++ post ∧ Forall (λ c, isspace c = true) post.
Proof.
  destruct (lstrip_split (reverse s)) as (pre & Hs & Hpre).
  exists (reverse pre). split.
  - unfold rstrip. rewrite <- reverse_app, <- Hs. by rewrite reverse_involutive.
  - by apply Forall_reverse.
Qed.

Lemma strip_head s c rest : strip s = c :: rest → isspace c = false.
Proof.
  unfold strip. destruct (lstrip s) as [|a u] eqn:Hu; [done|].
  assert (isspace a = false) as Ha by by eapply lstrip_head.
  rewrite rstrip_cons by done. intros H. by simplify_eq.
Qed.

Lemma strip_last s c : last (strip s) = Some c → isspace c = false.
Proof. apply rstrip_last. Qed.

Lemma strip_strip s : strip (strip s) = strip s.
Proof.
  destruct (strip s) as [|c rest] eqn:Heq; [done|].
  assert (isspace c = false) as Hc by by eapply strip_head.
  unfold strip at 1. rewrite lstrip_stable by done.
  unfold rstrip. destruct (reverse (c :: rest)) as [|d u] eqn:Hrev.
  { apply (f_equal length) in Hrev. by rewrite length_reverse in Hrev. }
  assert (isspace d = false) as Hd.
  { apply (strip_last s). by rewrite Heq, <- head_reverse, Hrev. }
  rewrite lstrip_stable by done. by rewrite <- Hrev, reverse_involutive.
Qed.

(** X2. [s.strip()] takes off whitespace and nothing else: the string
    is some whitespace, then its stripped form, then some whitespace;
    and the stripped form neither starts nor ends with whitespace. *)
Theorem strip_spec s :
  (∃ pre post, s = pre ++ strip s ++ post
     ∧ Forall (λ c, isspace c = true) pre
     ∧ Forall (λ c, isspace c = true) post)
  ∧ (∀ c, head (strip s) = Some c → isspace c = false)
  ∧ (∀ c, last (strip s) = Some c → isspace c = false).
Proof.
  split; [|split].
  - destruct (lstrip_split s) as (pre & Hs & Hpre).
    destruct (rstrip_split (lstrip s)) as (post & Hu & Hpost).
    exists pre, post. split; [|done]. unfold strip. by rewrite <- Hu.
  - intros c Hc. destruct (strip s) as [|a rest] eqn:Heq; [done|].
    simplify_eq/=. by eapply strip_head.
  - apply strip_last.
Qed.

(** X3. Every tweet of a thread is a piece of the split text, trimmed;
    it is not empty, and trimming it again changes nothing: no segment
    that reaches validation or the API is blank or padded. *)
Theorem thread_tweets_trimmed text tweet :
  tweet ∈ thread_tweets text →
  tweet ≠ []
  ∧ strip tweet = tweet
  ∧ ∃ piece, piece ∈ split THREAD_SEPARATOR text ∧ tweet = strip piece.
Proof.
  unfold thread_tweets. intros Hin.
  apply list_elem_of_fmap in Hin as (piece & -> & Hpiece).
  apply list_elem_of_In, filter_In in Hpiece as [Hpiece Hne].
  split; [by destruct (strip piece)|]. split; [apply strip_strip|].
  exists piece. by rewrite list_elem_of_In.
Qed.

(** X4. A text in which the separator does not occur is never posted
    as a thread: [x_post_thread] returns the error about needing two
    tweets and sends nothing. *)
Theorem x_post_thread_no_separator text p :
  find THREAD_SEPARATOR text = false →
  x_post_thread text p =
    (Returned (lit "Error: Thread must have at least 2 tweets. Use '\n\n---\n\n' as separator."), p).
Proof.
  intros Hfind. unfold x_post_thread, thread_tweets, split.
  rewrite split_go_no_match by done. cbn [reverse rev_append app List.filter].
  by destruct (nonempty (strip text)).
Qed.

(** *** What goes out *)

Lemma silent_ret {A} (a : A) : silent (mret a).
Proof. done. Qed.

Lemma silent_lift {A} (r : result A) : silent (lift r).
Proof. done. Qed.

Lemma silent_bind {A B} (m : M A) (f : A → M B) :
  silent m → (∀ a, silent (f a)) → silent (m ≫= f).
Proof.
  intros Hm Hf p. specialize (Hm p). unfold mbind, M_bind.
  destruct (m p) as [[a|e] p']; cbn [snd] in Hm; subst; [apply Hf|done].
Qed.

(** After a first step, a silent rest leaves the log where it stands. *)
Lemma bind_silent {A B} (m : M A) (f : A → M B) p :
  (∀ a, silent (f a)) → ((m ≫= f) p).2 = (m p).2.
Proof.
  intros Hf. unfold mbind, M_bind.
  destruct (m p) as [[a|e] p']; [apply Hf|done].
Qed.

Ltac silent :=
  repeat first
    [ apply silent_ret | apply silent_lift
    | apply silent_bind; [|intros ?]
    | match goal with
      | |- silent (if ?b then _ else _) => destruct b
      | |- silent (match ?x with _ => _ end) => destruct x
      end ].

Lemma x_get_me_log p :
  (x_get_me p).2 = sending (get_me_request (twitter_auth p)) p.
Proof.
  unfold x_get_me. rewrite bind_silent; [by rewrite get_me_run|].
  intros result. silent.
Qed.

Lemma x_get_tweet_log tweet_id p :
  (x_get_tweet tweet_id p).2
  = sending (get_tweet_request (twitter_auth p) tweet_id) p.
Proof.
  unfold x_get_tweet. rewrite bind_silent; [by rewrite get_tweet_run|].
  intros result. silent.
Qed.

Lemma x_delete_tweet_log tweet_id p :
  (x_delete_tweet tweet_id p).2
  = sending (delete_tweet_request (twitter_auth p) tweet_id) p.
Proof.
  unfold x_delete_tweet. rewrite bind_silent; [by rewrite delete_tweet_run|].
  intros result. silent.
Qed.

Lemma x_post_tweet_log text p :
  (x_post_tweet text p).2
  = if 280 <? len text then p
    else sending (post_request (twitter_auth p) text PyNone) p.
Proof.
  unfold x_post_tweet. destruct (280 <? len text); [done|].
  rewrite bind_silent; [by rewrite post_tweet_run|].
  intros result. silent.
Qed.

(** The posting loop sends the tweets from the first on, one request
    each, and stops somewhere. *)
Lemma post_tweets_log tweets : ∀ i posted_ids reply_to p,
  ∃ later,
    (post_tweets i tweets posted_ids reply_to p).2 = logging later p
    ∧ (length later ≤ length tweets)%nat
    ∧ ∀ (k : nat) req, later !! k = Some req →
        ∃ tweet target,
          tweets !! k = Some tweet
          ∧ req = post_request (twitter_auth p) tweet target.
Proof.
  induction tweets as [|tweet tweets IH]; intros i posted_ids reply_to p.
  - exists []. cbn [post_tweets]. split; [|split; [done|by intros []]].
    unfold thread_posted. rewrite logging_nil. by destruct (_ <$> _).
  - assert (∀ q, q = sending (post_request (twitter_auth p) tweet reply_to) p →
              ∃ later, q = logging later p ∧ (length later ≤ S (length tweets))%nat
                ∧ ∀ (k : nat) req, later !! k = Some req →
                    ∃ tweet' target, (tweet :: tweets) !! k = Some tweet'
                      ∧ req = post_request (twitter_auth p) tweet' target)
      as Hone.
    { intros q ->. exists [post_request (twitter_auth p) tweet reply_to].
      split; [done|]. split; [cbn [length]; lia|].
      intros [|k] req Hk; [|done]. simplify_eq/=. eauto. }
    destruct (decoded (upstream (length (sent p)))) as [body|] eqn:Hbody;
      [|apply Hone; by rewrite post_tweets_raise].
    destruct (decide (status_code (upstream (length (sent p))) = 201))
      as [Hs|Hs]; [|apply Hone; by erewrite post_tweets_fail].
    destruct (returned_id (upstream (length (sent p)))) as [id|] eqn:Hid;
      [|apply Hone; by eapply proj1, post_tweets_no_id].
    rewrite (post_tweets_step _ _ _ _ _ _ id) by done.
    destruct (IH (i + 1) (posted_ids ++ [id]) id
                (sending (post_request (twitter_auth p) tweet reply_to) p))
      as (later & -> & Hlen & Hreqs).
    exists (post_request (twitter_auth p) tweet reply_to :: later).
    split; [unfold sending; by rewrite logging_logging|].
    split; [cbn [length]; lia|].
    intros [|k] req Hk; [simplify_eq/=; eauto|]. by apply Hreqs.
Qed.

Lemma x_post_thread_log text p :
  ∃ later,
    (x_post_thread text p).2 = logging later p
    ∧ (length later ≤ length (thread_tweets text))%nat
    ∧ ∀ (k : nat) req, later !! k = Some req →
        ∃ tweet target,
          thread_tweets text !! k = Some tweet
          ∧ req = post_request (twitter_auth p) tweet target.
Proof.
  unfold x_post_thread.
  destruct (_ <? 2);
    [exists []; rewrite logging_nil; split; [done|split; [simpl; lia|by intros []]]|].
  destruct (validate_lengths 0 (thread_tweets text));
    [exists []; rewrite logging_nil; split; [done|split; [simpl; lia|by intros []]]|].
  apply post_tweets_log.
Qed.

(** Every request of a call carries the signer of the process. *)
Lemma call_signed t p :
  ∃ later, (call t p).2 = logging later p
    ∧ Forall (λ req, req_auth req = twitter_auth p) later.
Proof.
  destruct t as [|text|text|tweet_id|tweet_id]; cbn [call].
  - eexists. split; [apply x_get_me_log|]. by repeat constructor.
  - rewrite x_post_tweet_log. destruct (280 <? len text).
    + exists []. by rewrite logging_nil.
    + eexists. split; [done|]. by repeat constructor.
  - destruct (x_post_thread_log text p) as (later & Hlog & _ & Hreqs).
    exists later. split; [done|]. apply Forall_lookup. intros k req Hk.
    by destruct (Hreqs k req Hk) as (tweet & target & _ & ->).
  - eexists. split; [apply x_get_tweet_log|]. by repeat constructor.
  - eexists. split; [apply x_delete_tweet_log|]. by repeat constructor.
Qed.

(** X5. The tools that make one request make it whatever comes back,
    also when they end up raising: [x_get_me] one GET of the user,
    [x_get_tweet] one GET and [x_delete_tweet] one DELETE of the tweet
    named, and [x_post_tweet], for a text within the limit, one POST of
    that text with no reply target.  Nothing else is sent. *)
Theorem one_request p :
  (x_get_me p).2 = sending (get_me_request (twitter_auth p)) p
  ∧ (∀ tweet_id,
       (x_get_tweet tweet_id p).2
       = sending (get_tweet_request (twitter_auth p) tweet_id) p)
  ∧ (∀ tweet_id,
       (x_delete_tweet tweet_id p).2
       = sending (delete_tweet_request (twitter_auth p) tweet_id) p)
  ∧ (∀ text, len text ≤ 280 →
       (x_post_tweet text p).2
       = sending (post_request (twitter_auth p) text PyNone) p
       ∧ reply_target (post_request (twitter_auth p) text PyNone) = None).
Proof.
  split; [apply x_get_me_log|].
  split; [intros; apply x_get_tweet_log|].
  split; [intros; apply x_delete_tweet_log|]. intros text Hlen.
  rewrite x_post_tweet_log. destruct (Z.ltb_spec 280 (len text)); [lia|].
  split; [done|]. by rewrite reply_target_post.
Qed.

(** X6. Whatever the responses, [x_post_thread] sends at most one
    request per segment, and the requests it sends are posts of the
    segments in their order, from the first on, signed with the
    process's signer: it never skips a segment, never repeats one and
    never sends anything but posts. *)
Theorem thread_requests_in_order text p :
  ∃ later,
    (x_post_thread text p).2 = logging later p
    ∧ (length later ≤ length (thread_tweets text))%nat
    ∧ ∀ (k : nat) req, later !! k = Some req →
        req_method req = POST
        ∧ req_url req = tweets_url
        ∧ req_auth req = twitter_auth p
        ∧ request_text req = PyStr <$> thread_tweets text !! k.
Proof.
  destruct (x_post_thread_log text p) as (later & Hlog & Hlen & Hreqs).
  exists later. split; [done|]. split; [done|]. intros k req Hk.
  destruct (Hreqs k req Hk) as (tweet & target & Htweet & ->).
  by rewrite request_text_post, Htweet.
Qed.

Lemma session_log calls : ∀ p,
  globals (session calls p) = globals p
  ∧ ∃ later, sent (session calls p) = sent p ++ later
      ∧ Forall (λ req, req_auth req = twitter_auth p) later.
Proof.
  induction calls as [|t calls IH]; intros p; cbn [session].
  - split; [done|]. exists []. by rewrite app_nil_r.
  - destruct (call_signed t p) as (first & Hfirst & Hsigned).
    destruct (IH (call t p).2) as (Hglobals & later & Hlater & Hrest).
    rewrite Hfirst in *. split; [done|].
    exists (first ++ later). rewrite Hlater, sent_logging, <- app_assoc.
    split; [done|]. apply Forall_app. by rewrite auth_logging in Hrest.
Qed.

(** X7. Over a whole session, from start-up through any sequence of
    tool calls, the credentials and the signer stay those of start-up
    and every request that was sent carries that signer. *)
Theorem session_signed (environ : gmap pystr pystr) calls :
  globals (session calls (module_init environ).1)
  = globals (module_init environ).1
  ∧ Forall (λ req, req_auth req = twitter_auth (module_init environ).1)
      (sent (session calls (module_init environ).1)).
Proof.
  destruct (session_log calls (module_init environ).1)
    as (Hglobals & later & Hlater & Hsigned).
  split; [done|]. by rewrite Hlater.
Qed.

(** *** Threads, whatever the identifiers *)





(** *** Success statuses with unexpected bodies *)

(** X11. A success status does not protect the subscripts: when the
    decoded body cannot be subscripted by [data] (the key is missing,
    as in an errors-only body, or the body is not an object), then
    [x_get_me], [x_get_tweet] and [x_post_tweet] raise that very
    exception, [KeyError] or [TypeError], after their request went
    out. *)
Theorem success_without_data p body e :
  decoded (upstream (length (sent p))) = Some body →
  getitem body (lit "data") = Raised e →
  (status_code (upstream (length (sent p))) = 200 →
     x_get_me p
     = (Raised e, sending (get_me_request (twitter_auth p)) p)
     ∧ ∀ tweet_id,
         x_get_tweet tweet_id p
         = (Raised e, sending (get_tweet_request (twitter_auth p) tweet_id) p))
  ∧ (status_code (upstream (length (sent p))) = 201 →
     ∀ text, len text ≤ 280 →
       x_post_tweet text p
       = (Raised e, sending (post_request (twitter_auth p) text PyNone) p)).
Proof.
  intros Hbody Hdata. split.
  - intros Hs. split; [|intros tweet_id].
    + unfold x_get_me.
      erewrite bind_returned; [|by rewrite get_me_run, Hbody].
      cbn [status data]. rewrite Hs. cbn [Z.eqb Pos.eqb negb].
      erewrite bind_raised; [done|]. by unfold lift; rewrite Hdata.
    + unfold x_get_tweet.
      erewrite bind_returned; [|by rewrite get_tweet_run, Hbody].
      cbn [status data]. rewrite Hs. cbn [Z.eqb Pos.eqb negb].
      erewrite bind_raised; [done|]. by unfold lift; rewrite Hdata.
  - intros Hs text Hlen. unfold x_post_tweet.
    destruct (Z.ltb_spec 280 (len text)); [lia|].
    erewrite bind_returned; [|by apply post_tweet_returns].
    cbn [status data]. rewrite Hs. cbn [Z.eqb Pos.eqb negb].
    erewrite bind_raised; [done|]. by unfold lift; rewrite Hdata.
Qed.

(** X12. [public_metrics] has to be an object when it is there: on a
    200 whose [data] is a dict in which [public_metrics] is present but
    is not a dict (null, say), [x_get_tweet] and [x_get_me] raise
    [AttributeError] once the keys they subscript are found; the
    default [{}] only stands in for a missing key. *)
Theorem metrics_not_an_object p body d metrics :
  status_code (upstream (length (sent p))) = 200 →
  decoded (upstream (length (sent p))) = Some body →
  getitem body (lit "data") = Returned (PyDict d) →
  assoc (lit "public_metrics") d = Some metrics →
  (∀ items, metrics ≠ PyDict items) →
  (∀ tweet_id, is_Some (assoc (lit "id") d) →
     (x_get_tweet tweet_id p).1 = Raised AttributeError)
  ∧ (is_Some (assoc (lit "username") d) → is_Some (assoc (lit "name") d) →
     is_Some (assoc (lit "id") d) →
     (x_get_me p).1 = Raised AttributeError).
Proof.
  intros Hs Hbody Hd Hm Hnot.
  assert (get (PyDict d) (lit "public_metrics") (PyDict []) = Returned metrics)
    as Hget by (unfold get; by rewrite Hm).
  assert (∀ key dflt, get metrics key dflt = Raised AttributeError) as Hraise.
  { intros key dflt. destruct metrics; try done. by destruct (Hnot items). }
  split.
  - intros tweet_id [id Hid]. unfold x_get_tweet.
    erewrite bind_returned; [|by rewrite get_tweet_run, Hbody].
    cbn [status data]. rewrite Hs. cbn [Z.eqb Pos.eqb negb].
    erewrite bind_returned; [|by unfold lift; rewrite Hd].
    erewrite bind_returned; [|by unfold lift; rewrite Hget].
    erewrite bind_returned; [|by unfold lift; rewrite (getitem_dict d _ id)].
    erewrite bind_returned; [|by unfold lift, get].
    erewrite bind_returned; [|by unfold lift, get].
    erewrite bind_raised; [done|]. by unfold lift; rewrite Hraise.
  - intros [username Hu] [name Hn] [id Hid]. unfold x_get_me.
    erewrite bind_returned; [|by rewrite get_me_run, Hbody].
    cbn [status data]. rewrite Hs. cbn [Z.eqb Pos.eqb negb].
    erewrite bind_returned; [|by unfold lift; rewrite Hd].
    erewrite bind_returned; [|by unfold lift; rewrite Hget].
    erewrite bind_returned;
      [|by unfold lift; rewrite (getitem_dict d _ username)].
    erewrite bind_returned; [|by unfold lift; rewrite (getitem_dict d _ name)].
    erewrite bind_returned; [|by unfold lift; rewrite (getitem_dict d _ id)].
    erewrite bind_raised; [done|]. by unfold lift; rewrite Hraise.
Qed.

(** X13. [x_delete_tweet] on a 200 reports the deletion of the
    identifier it was given, whatever the body says, and an empty body
    is fine: it is not decoded.  But a 200 with a body that is neither
    empty nor JSON raises [JSONDecodeError]: the body is decoded before
    the status is looked at. *)
Theorem x_delete_tweet_on_200 tweet_id p :
  status_code (upstream (length (sent p))) = 200 →
  (text (upstream (length (sent p))) = []
   ∨ is_Some (decoded (upstream (length (sent p)))) →
   x_delete_tweet tweet_id p
   = (Returned (lit "Tweet " ++ tweet_id ++ lit " deleted successfully."),
      sending (delete_tweet_request (twitter_auth p) tweet_id) p))
  ∧ (text (upstream (length (sent p))) ≠ [] →
     decoded (upstream (length (sent p))) = None →
     x_delete_tweet tweet_id p
     = (Raised JSONDecodeError,
        sending (delete_tweet_request (twitter_auth p) tweet_id) p)).
Proof.
  intros Hs. split.
  - intros Hbody.
    assert (is_Some (body_read (DeleteTweet tweet_id)
                       (upstream (length (sent p))))) as [body Hread].
    { cbn [body_read]. destruct Hbody as [->|Hdec]; [by eexists|].
      by destruct (nonempty _). }
    unfold x_delete_tweet.
    erewrite bind_returned; [|by rewrite delete_tweet_run, Hread].
    cbn [status data]. rewrite Hs. done.
  - intros Htext Hdec. unfold x_delete_tweet.
    erewrite bind_raised; [done|]. rewrite delete_tweet_run. cbn [body_read].
    destruct (text _); [done|]. cbn [nonempty]. by rewrite Hdec.
Qed.

(** X14. [x_post_tweet] on a 201 that carries an identifier returns
    the confirmation with that identifier, as [str] prints it, both on
    the ID line and at the end of the status URL. *)
Theorem x_post_tweet_posted text p id :
  len text ≤ 280 →
  status_code (upstream (length (sent p))) = 201 →
  returned_id (upstream (length (sent p))) = Some id →
  (x_post_tweet text p).1 =
    Returned (lit "Tweet posted!" ++ NL ++ lit "ID: " ++ py_str id ++ NL
              ++ lit "URL: https://twitter.com/i/status/" ++ py_str id).
Proof.
  intros Hlen Hs Hid. by rewrite (x_post_tweet_success text p id).
Qed.

(** *** The environment *)

Lemma credential_values (environ : gmap pystr pystr) :
  (globals (module_init environ).1).1
  = (λ name, default [] (environ !! name)) <$> credential_names.
Proof. done. Qed.

(** X15. Each credential depends on its own variable only: setting one
    of the four variables to [v] before start-up makes that credential
    [v] and leaves the other three as they would have been; a variable
    of any other name changes none of them. *)
Theorem credentials_follow_environment (environ : gmap pystr pystr) name v :
  (globals (module_init (<[name := v]> environ)).1).1
  = (λ n, if decide (n = name) then v else default [] (environ !! n))
      <$> credential_names.
Proof.
  rewrite credential_values. apply list_fmap_ext. intros _ n _.
  rewrite lookup_insert. destruct (decide (name = n)) as [->|Hne].
  - by rewrite decide_True.
  - by rewrite decide_False.
Qed.

End Server.

(** ** Worked cases *)



Example split_thread :
  split THREAD_SEPARATOR
    (lit "1/ a " ++ THREAD_SEPARATOR ++ lit " 2/ b" ++ THREAD_SEPARATOR)
  = [lit "1/ a "; lit " 2/ b"; []]
  ∧ thread_tweets
      (lit "1/ a " ++ THREAD_SEPARATOR ++ lit " 2/ b" ++ THREAD_SEPARATOR)
    = [lit "1/ a"; lit "2/ b"]
  ∧ split THREAD_SEPARATOR [] = [[]]
  ∧ split THREAD_SEPARATOR (THREAD_SEPARATOR ++ lit "---" ++ NL ++ NL)
    = [[]; lit "---" ++ NL ++ NL]
  ∧ split (lit "aa") (lit "aaa") = [[]; lit "a"].
Proof. repeat split; vm_compute; reflexivity. Qed.

Example py_str_dict :
  py_str isprintable_latin1
    (PyDict [(lit "title", PyStr (lit "Forbidden")); (lit "status", PyInt 403);
             (lit "errors", PyList [PyStr (lit "it's"); PyNone])])
  = lit "{'title': 'Forbidden', 'status': 403, 'errors': [" ++ dq
    ++ lit "it's" ++ dq ++ lit ", None]}".
Proof. vm_compute. reflexivity. Qed.

Example thread_posted_text :
  (x_post_thread isprintable_latin1
     (answers (created (lit "1")) (created (lit "2"))) two_tweets fresh).1
  = Returned (lit "Thread posted! (2 tweets)" ++ NL
              ++ lit "IDs: ['1', '2']" ++ NL
              ++ lit "First tweet: https://twitter.com/i/status/1").
Proof. vm_compute. reflexivity. Qed.

Example start_without_credentials :
  globals fresh
  = ([[]; []; []; []],
     {| client_key := []; client_secret := []; resource_owner_key := [];
        resource_owner_secret := [] |}).
Proof. vm_compute. reflexivity. Qed.

(** *** C1 *)



(** *** C2 *)



(** *** C3, C4, C5, C10 *)

Lemma x_post_thread_segment_too_long_witness :
  thread_tweets (lit "fine" ++ THREAD_SEPARATOR ++ xs 281)
  = [lit "fine"; xs 281]
  ∧ ∃ (j : nat) (tweet : pystr),
      thread_tweets (lit "fine" ++ THREAD_SEPARATOR ++ xs 281) !! j
      = Some tweet
      ∧ 280 < len tweet
      ∧ (∀ (k : nat) t, (k < j)%nat →
           thread_tweets (lit "fine" ++ THREAD_SEPARATOR ++ xs 281) !! k
           = Some t → len t ≤ 280)
      ∧ x_post_thread isprintable_latin1 (always forbidden)
          (lit "fine" ++ THREAD_SEPARATOR ++ xs 281) fresh
        = (Returned (lit "Error: Tweet " ++ int_str (Z.of_nat j + 1)
                     ++ lit " too long (" ++ int_str (len tweet)
                     ++ lit " chars). Max 280."), fresh).
Proof.
  split; [vm_compute; reflexivity|].
  apply (x_post_thread_segment_too_long isprintable_latin1).
  - vm_compute. lia.
  - apply Exists_cons_tl, Exists_cons_hd. vm_compute. reflexivity.
Defined.

Lemma x_post_tweet_too_long_witness :
  280 < len (xs 281)
  ∧ x_post_tweet isprintable_latin1 (always forbidden) (xs 281) fresh
    = (Returned (lit "Error: Tweet too long (" ++ int_str (len (xs 281))
                 ++ lit " chars). Max 280."), fresh).
Proof.
  split; [vm_compute; reflexivity|].
  apply (x_post_tweet_too_long isprintable_latin1). vm_compute. reflexivity.
Defined.

Lemma x_post_thread_too_few_witness :
  thread_tweets (lit "only one" ++ THREAD_SEPARATOR ++ lit "  ")
  = [lit "only one"]
  ∧ x_post_thread isprintable_latin1 (always forbidden)
      (lit "only one" ++ THREAD_SEPARATOR ++ lit "  ") fresh
    = (Returned (lit "Error: Thread must have at least 2 tweets. Use '\n\n---\n\n' as separator."), fresh).
Proof.
  split; [vm_compute; reflexivity|].
  apply (x_post_thread_too_few isprintable_latin1). vm_compute. lia.
Defined.

Lemma limit_inclusive_witness :
  len (xs 280) = 280
  ∧ sent (x_post_tweet isprintable_latin1 (always forbidden) (xs 280) fresh).2
    = sent fresh ++ [post_request (twitter_auth fresh) (xs 280) PyNone]
  ∧ validate_lengths 0 [xs 280; lit "two"] = validate_lengths (0 + 1) [lit "two"]
  ∧ ∃ first others later,
      thread_tweets (xs 280 ++ THREAD_SEPARATOR ++ lit "two")
      = first :: others
      ∧ sent (x_post_thread isprintable_latin1 (always forbidden)
                (xs 280 ++ THREAD_SEPARATOR ++ lit "two") fresh).2
        = sent fresh ++ post_request (twitter_auth fresh) first PyNone :: later.
Proof.
  destruct (limit_inclusive isprintable_latin1 (always forbidden))
    as (Htweet & Hstep & Hthread).
  split; [vm_compute; reflexivity|].
  split; [apply Htweet; vm_compute; reflexivity|].
  split; [apply Hstep; vm_compute; reflexivity|].
  apply Hthread.
  - vm_compute. lia.
  - vm_compute. repeat constructor; discriminate.
Defined.

(** *** C6 *)



(** *** C7 *)

Lemma success_formatting_witness :
  (x_get_tweet isprintable_latin1 (always found_user) (lit "7") fresh).1
  = Returned (lit "Tweet ID: 7" ++ NL ++ lit "Text: N/A" ++ NL
              ++ lit "Created: N/A" ++ NL ++ NL ++ lit "Metrics:" ++ NL
              ++ lit "- Likes: 0" ++ NL ++ lit "- Retweets: 0" ++ NL
              ++ lit "- Replies: 0" ++ NL ++ lit "- Impressions: 0" ++ NL
              ++ lit "- Quotes: 0" ++ NL ++ lit "- Bookmarks: 0")
  ∧ (x_get_me isprintable_latin1 (always found_user) fresh).1
    = Returned (lit "Authenticated as: @ann" ++ NL ++ lit "Name: Ann" ++ NL
                ++ lit "ID: 7" ++ NL ++ lit "Followers: N/A" ++ NL
                ++ lit "Following: N/A" ++ NL ++ lit "Tweets: N/A").
Proof.
  destruct (success_formatting isprintable_latin1 (always found_user) fresh
              (PyDict [(lit "data",
                        PyDict [(lit "id", PyStr (lit "7"));
                                (lit "name", PyStr (lit "Ann"));
                                (lit "username", PyStr (lit "ann"))])])
              [(lit "id", PyStr (lit "7")); (lit "name", PyStr (lit "Ann"));
               (lit "username", PyStr (lit "ann"))]
              [] eq_refl eq_refl eq_refl eq_refl)
    as (Htweet & Hme & _).
  split.
  - rewrite (Htweet (lit "7") (PyStr (lit "7")) eq_refl).
    vm_compute. reflexivity.
  - rewrite (Hme (PyStr (lit "ann")) (PyStr (lit "Ann")) (PyStr (lit "7"))
               eq_refl eq_refl eq_refl).
    vm_compute. reflexivity.
Defined.

(** C7 as stated fails for the keys the tools subscript: on a 200 whose
    [data] holds no [id], [x_get_tweet] raises [KeyError], and so does
    [x_get_me] for a missing [username]; nothing is substituted. *)
Lemma missing_id_not_substituted :
  status_code found_bare = 200
  ∧ (x_get_tweet isprintable_latin1 (always found_bare) (lit "7") fresh).1
    = Raised (KeyError (lit "id"))
  ∧ (x_get_me isprintable_latin1 (always found_bare) fresh).1
    = Raised (KeyError (lit "username")).
Proof. repeat split; vm_compute; reflexivity. Qed.

(** *** C8 *)



(** *** Further cases *)

Lemma join_split_witness :
  THREAD_SEPARATOR ≠ []
  ∧ join THREAD_SEPARATOR (split THREAD_SEPARATOR two_tweets) = two_tweets.
Proof.
  assert (THREAD_SEPARATOR ≠ []) as Hsep by done.
  split; [exact Hsep|]. exact (join_split THREAD_SEPARATOR two_tweets Hsep).
Defined.

Lemma strip_spec_witness :
  strip (lit "  hi there " ++ NL) = lit "hi there"
  ∧ ∀ c, head (strip (lit "  hi there " ++ NL)) = Some c → isspace c = false.
Proof.
  split; [vm_compute; reflexivity|].
  exact (proj1 (proj2 (strip_spec (lit "  hi there " ++ NL)))).
Defined.

Lemma thread_tweets_trimmed_witness :
  lit "two" ∈ thread_tweets two_tweets
  ∧ lit "two" ≠ []
  ∧ strip (lit "two") = lit "two"
  ∧ ∃ piece, piece ∈ split THREAD_SEPARATOR two_tweets
      ∧ lit "two" = strip piece.
Proof.
  assert (lit "two" ∈ thread_tweets two_tweets) as Hin.
  { apply (bool_decide_unpack _). vm_compute. reflexivity. }
  split; [exact Hin|]. exact (thread_tweets_trimmed two_tweets _ Hin).
Defined.

Lemma x_post_thread_no_separator_witness :
  find THREAD_SEPARATOR (lit "one" ++ NL ++ lit "---" ++ NL ++ lit "two")
  = false
  ∧ x_post_thread isprintable_latin1 (always (created (lit "1")))
      (lit "one" ++ NL ++ lit "---" ++ NL ++ lit "two") fresh
    = (Returned (lit "Error: Thread must have at least 2 tweets. Use '\n\n---\n\n' as separator."), fresh).
Proof.
  split; [vm_compute; reflexivity|].
  apply (x_post_thread_no_separator isprintable_latin1). vm_compute.
  reflexivity.
Defined.

Lemma one_request_witness :
  (x_get_me isprintable_latin1 (always unavailable) fresh).1
  = Raised JSONDecodeError
  ∧ (x_get_me isprintable_latin1 (always unavailable) fresh).2
    = sending (get_me_request (twitter_auth fresh)) fresh
  ∧ (x_post_tweet isprintable_latin1 (always unavailable) (lit "hello")
       fresh).2
    = sending (post_request (twitter_auth fresh) (lit "hello") PyNone) fresh.
Proof.
  destruct (one_request isprintable_latin1 (always unavailable) fresh)
    as (Hme & _ & _ & Hpost).
  split; [vm_compute; reflexivity|]. split; [exact Hme|].
  apply Hpost. vm_compute. discriminate.
Defined.

Lemma thread_requests_in_order_witness :
  ∃ later,
    (x_post_thread isprintable_latin1 (answers (created (lit "1")) unavailable)
       two_tweets fresh).2 = logging later fresh
    ∧ (length later ≤ length (thread_tweets two_tweets))%nat
    ∧ ∀ (k : nat) req, later !! k = Some req →
        req_method req = POST
        ∧ req_url req = tweets_url
        ∧ req_auth req = twitter_auth fresh
        ∧ request_text req = PyStr <$> thread_tweets two_tweets !! k.
Proof. apply (thread_requests_in_order isprintable_latin1). Defined.




Lemma success_without_data_witness :
  x_get_tweet isprintable_latin1 (always not_found) (lit "7") fresh
  = (Raised (KeyError (lit "data")),
     sending (get_tweet_request (twitter_auth fresh) (lit "7")) fresh)
  ∧ x_post_tweet isprintable_latin1 (always created_bare) (lit "hello") fresh
    = (Raised (KeyError (lit "data")),
       sending (post_request (twitter_auth fresh) (lit "hello") PyNone) fresh).
Proof.
  split.
  - apply (success_without_data isprintable_latin1 (always not_found) fresh
             (PyDict [(lit "errors",
                       PyList [PyDict [(lit "detail",
                                        PyStr (lit "Not Found"))]])])
             (KeyError (lit "data")) eq_refl eq_refl).
    reflexivity.
  - apply (success_without_data isprintable_latin1 (always created_bare) fresh
             (PyDict []) (KeyError (lit "data")) eq_refl eq_refl).
    + reflexivity.
    + vm_compute. discriminate.
Defined.

Lemma metrics_not_an_object_witness :
  (x_get_tweet isprintable_latin1 (always null_metrics) (lit "7") fresh).1
  = Raised AttributeError
  ∧ (x_get_me isprintable_latin1 (always null_metrics) fresh).1
    = Raised AttributeError.
Proof.
  destruct (metrics_not_an_object isprintable_latin1 (always null_metrics)
              fresh
              (PyDict [(lit "data",
                        PyDict [(lit "id", PyStr (lit "7"));
                                (lit "name", PyStr (lit "Ann"));
                                (lit "username", PyStr (lit "ann"));
                                (lit "public_metrics", PyNone)])])
              [(lit "id", PyStr (lit "7")); (lit "name", PyStr (lit "Ann"));
               (lit "username", PyStr (lit "ann"));
               (lit "public_metrics", PyNone)]
              PyNone eq_refl eq_refl eq_refl eq_refl
              ltac:(discriminate)) as [Htweet Hme].
  split.
  - apply Htweet. eexists. vm_compute. reflexivity.
  - apply Hme; eexists; vm_compute; reflexivity.
Defined.

Lemma x_delete_tweet_on_200_witness :
  x_delete_tweet isprintable_latin1 (always empty_ok) (lit "7") fresh
  = (Returned (lit "Tweet " ++ lit "7" ++ lit " deleted successfully."),
     sending (delete_tweet_request (twitter_auth fresh) (lit "7")) fresh)
  ∧ x_delete_tweet isprintable_latin1 (always plain_ok) (lit "7") fresh
    = (Raised JSONDecodeError,
       sending (delete_tweet_request (twitter_auth fresh) (lit "7")) fresh).
Proof.
  split.
  - apply (x_delete_tweet_on_200 isprintable_latin1 (always empty_ok)
             (lit "7") fresh eq_refl).
    left. reflexivity.
  - apply (x_delete_tweet_on_200 isprintable_latin1 (always plain_ok)
             (lit "7") fresh eq_refl).
    + vm_compute. discriminate.
    + reflexivity.
Defined.

Lemma x_post_tweet_posted_witness :
  (x_post_tweet isprintable_latin1 (always (created (lit "42"))) (lit "hello")
     fresh).1
  = Returned (lit "Tweet posted!" ++ NL ++ lit "ID: 42" ++ NL
              ++ lit "URL: https://twitter.com/i/status/42").
Proof.
  rewrite (x_post_tweet_posted isprintable_latin1 (always (created (lit "42")))
             (lit "hello") fresh (PyStr (lit "42"))).
  - vm_compute. reflexivity.
  - vm_compute. discriminate.
  - reflexivity.
  - vm_compute. reflexivity.
Defined.
